(** * make_lint.py: the check runner of DataQuilt

    A shallow embedding of [src/make_lint.py]: the [LintChecker] class
    (command runner, check catalog, aggregation) and [main].

    - Python values stored in the report are an inductive type [pyval];
      a [dict] is an association list in insertion order (the order in
      which Python iterates it).
    - The outside of the process (spawned commands, the file system, the
      wall clock) is a [World] the program queries.
    - Methods of [LintChecker] are computations in a state-and-exception
      monad [M] over the checker object and the trace of what the run
      logged and spawned. The text of [print_summary] and the content of
      the saved report are not part of the model. *)

From Stdlib Require Import ZArith String Ascii List Bool Lia.
From Stdlib Require Import QArith DecimalString Floats.
Import ListNotations.

Set Warnings "-register-all".

Local Open Scope string_scope.
Local Open Scope Z_scope.

(* ================================================================== *)
(** ** Python values *)
(* ================================================================== *)

(** The values that occur in [self.results]: [None], booleans, integers,
    text, lists, and dicts with text keys. Characters are the 8-bit
    characters of [string]. *)
Inductive pyval : Type :=
| VNone
| VBool (b : bool)
| VInt (z : Z)
| VStr (s : string)
| VList (l : list pyval)
| VDict (d : list (string * pyval)).

Definition dict : Type := list (string * pyval).

(** Exceptions. The program tells [subprocess.TimeoutExpired] apart from
    every other [Exception], of which it only uses [str(e)]. *)
Inductive exn : Type :=
| TimeoutExpired
| Exception (text : string).

Inductive res (A : Type) : Type :=
| Ok (a : A)
| Raise (e : exn).
Arguments Ok {A} a.
Arguments Raise {A} e.

(** *** Text *)

(** [sub in s] for two texts. *)
Fixpoint str_contains (sub s : string) : bool :=
  if String.prefix sub s then true
  else match s with
       | EmptyString => false
       | String _ s' => str_contains sub s'
       end.

(** [sep.join(parts)] *)
Definition str_join (sep : string) (parts : list string) : string :=
  String.concat sep parts.

(** [s[:n]] *)
Definition str_take (n : nat) (s : string) : string := substring 0 n s.

(** [x in l] for a list of texts. *)
Definition str_in_list (x : string) (l : list string) : bool :=
  existsb (String.eqb x) l.

Definition string_of_Z (z : Z) : string :=
  NilZero.string_of_int (Z.to_int z).

(** *** [repr] and [str] *)

Definition single_quote : ascii := "039"%char.
Definition double_quote : ascii := "034"%char.
Definition backslash : ascii := "092"%char.

Definition has_char (c : ascii) (s : string) : bool :=
  existsb (Ascii.eqb c) (list_ascii_of_string s).

Definition hex_digit (n : nat) : ascii :=
  nth n (list_ascii_of_string "0123456789abcdef") "0"%char.

(** One character of [repr(s)], [quote] being the delimiter chosen. *)
Definition repr_char (quote c : ascii) : string :=
  let n := nat_of_ascii c in
  if (Ascii.eqb c quote || Ascii.eqb c backslash)%bool
  then String backslash (String c "")
  else if (n =? 9)%nat then String backslash "t"
  else if (n =? 10)%nat then String backslash "n"
  else if (n =? 13)%nat then String backslash "r"
  else if ((n <? 32) || (n =? 127) ||
           ((128 <=? n) && (n <=? 160)) || (n =? 173))%nat%bool
  then String backslash
         (String "x" (String (hex_digit (n / 16)) (String (hex_digit (n mod 16)) "")))
  else String c "".

(** [repr(s)] of a text: single quotes, unless the text holds a single
    quote and no double quote. *)
Definition repr_str (s : string) : string :=
  let quote :=
    if (has_char single_quote s && negb (has_char double_quote s))%bool
    then double_quote else single_quote in
  String quote
    (String.concat "" (map (repr_char quote) (list_ascii_of_string s))
     ++ String quote "").

(** [repr(v)] *)
Fixpoint py_repr (v : pyval) : string :=
  match v with
  | VNone => "None"
  | VBool true => "True"
  | VBool false => "False"
  | VInt z => string_of_Z z
  | VStr s => repr_str s
  | VList l => "[" ++ str_join ", " (map py_repr l) ++ "]"
  | VDict d =>
      "{" ++ str_join ", "
               (map (fun kv => let '(k, x) := kv in
                               repr_str k ++ ": " ++ py_repr x) d) ++ "}"
  end.

(** [str(v)], what an f-string interpolates. *)
Definition py_str (v : pyval) : string :=
  match v with
  | VStr s => s
  | _ => py_repr v
  end.

(** [type(v).__name__] *)
Definition py_type_name (v : pyval) : string :=
  match v with
  | VNone => "NoneType"
  | VBool _ => "bool"
  | VInt _ => "int"
  | VStr _ => "str"
  | VList _ => "list"
  | VDict _ => "dict"
  end.

(** *** Truth value, [isinstance], [dict] methods, slicing *)

(** [bool(v)], the test of an [if]. *)
Definition truthy (v : pyval) : bool :=
  match v with
  | VNone => false
  | VBool b => b
  | VInt z => negb (z =? 0)
  | VStr s => negb (String.eqb s "")
  | VList l => match l with [] => false | _ => true end
  | VDict d => match d with [] => false | _ => true end
  end.

(** [isinstance(v, dict)] *)
Definition isinstance_dict (v : pyval) : bool :=
  match v with
  | VDict _ => true
  | _ => false
  end.

(** Lookup in insertion order. *)
Fixpoint dict_lookup (d : dict) (key : string) : option pyval :=
  match d with
  | [] => None
  | (k, x) :: d' => if String.eqb k key then Some x else dict_lookup d' key
  end.

(** [d[key] = x]: an existing key keeps its place, a new one goes last. *)
Fixpoint dict_set (d : dict) (key : string) (x : pyval) : dict :=
  match d with
  | [] => [(key, x)]
  | (k, y) :: d' =>
      if String.eqb k key then (k, x) :: d' else (k, y) :: dict_set d' key x
  end.

Definition no_attribute (v : pyval) (attr : string) : exn :=
  Exception ("'" ++ py_type_name v ++ "' object has no attribute '" ++ attr ++ "'").

(** [v.get(key, default)]; [v.get(key)] is [py_get v key VNone]. *)
Definition py_get (v : pyval) (key : string) (default : pyval) : res pyval :=
  match v with
  | VDict d => Ok (match dict_lookup d key with Some x => x | None => default end)
  | _ => Raise (no_attribute v "get")
  end.

(** [v[key]] *)
Definition py_getitem (v : pyval) (key : string) : res pyval :=
  match v with
  | VDict d =>
      match dict_lookup d key with
      | Some x => Ok x
      | None => Raise (Exception (repr_str key))
      end
  | VStr _ => Raise (Exception "string indices must be integers")
  | VList _ => Raise (Exception "list indices must be integers or slices, not str")
  | _ => Raise (Exception ("'" ++ py_type_name v ++ "' object is not subscriptable"))
  end.

(** [v.items()] *)
Definition py_items (v : pyval) : res dict :=
  match v with
  | VDict d => Ok d
  | _ => Raise (no_attribute v "items")
  end.

(** [v[:n]] *)
Definition py_slice_to (n : nat) (v : pyval) : res pyval :=
  match v with
  | VStr s => Ok (VStr (str_take n s))
  | VList l => Ok (VList (firstn n l))
  | VDict _ => Raise (Exception "unhashable type: 'slice'")
  | _ => Raise (Exception ("'" ++ py_type_name v ++ "' object is not subscriptable"))
  end.

(** Numbers of the summary: [success_rate] is a float, or the int [0]. *)
Inductive pynum : Type :=
| NInt (z : Z)
| NFloat (f : float).

(** [float(z)] for a count (exact below 2^53). *)
Definition float_of_Z (z : Z) : float :=
  PrimFloat.of_uint63 (Uint63.of_Z z).

(* ================================================================== *)
(** ** The outside world *)
(* ================================================================== *)

(** What a command does when it is spawned. *)
Inductive behaviour : Type :=
| Exits (seconds : Q) (returncode : Z) (stdout stderr : string)
| Hangs
| LaunchFails (text : string).

(** A run spawns each argument vector of the catalog once, so the world
    answers by argument vector; [strftime w n] is the clock reading at the
    [n]-th call of [log]. *)
Record World : Type := {
  spawn : list string -> behaviour;
  path_exists : string -> bool;
  strftime : nat -> string;
  open_for_writing : string -> option string
}.

(** [subprocess.CompletedProcess] *)
Record CompletedProcess : Type := {
  returncode : Z;
  stdout : string;
  stderr : string
}.

(** [subprocess.run(command, capture_output=True, text=True,
    timeout=timeout)]: the process is killed and [TimeoutExpired] raised
    when it has not exited after [timeout] seconds; a launch that fails
    raises an exception carrying its text. *)
Definition subprocess_run (w : World) (command : list string) (timeout : Z)
  : res CompletedProcess :=
  match spawn w command with
  | Exits seconds rc out err =>
      if Qle_bool seconds (inject_Z timeout)
      then Ok {| returncode := rc; stdout := out; stderr := err |}
      else Raise TimeoutExpired
  | Hangs => Raise TimeoutExpired
  | LaunchFails text => Raise (Exception text)
  end.

(* ================================================================== *)
(** ** The checker object and its monad *)
(* ================================================================== *)

(** [self.results["summary"]] once [analyze_results] has filled it. *)
Record Summary : Type := {
  total_checks : Z;
  successful_checks : Z;
  failed_checks : Z;
  overall_success : bool;
  success_rate : pynum
}.

(** The [LintChecker] object ([fix_mode] is [self.fix]; [summary] is
    [None] while [self.results["summary"]] is the empty dict), followed by
    the trace of the run: how often [log] was called, the lines it
    printed, and the argument vectors spawned, oldest first. *)
Record State : Type := {
  fix_mode : bool;
  verbose : bool;
  checks : dict;
  errors : list string;
  warnings : list string;
  summary : option Summary;
  log_calls : nat;
  logged : list string;
  spawned : list (list string)
}.

(** [LintChecker(fix, verbose)] in a fresh process. *)
Definition LintChecker (fix_ verbose_ : bool) : State :=
  {| fix_mode := fix_; verbose := verbose_;
     checks := []; errors := []; warnings := []; summary := None;
     log_calls := 0; logged := []; spawned := [] |}.

Definition M (A : Type) : Type := World -> State -> res A * State.

Definition ret {A : Type} (a : A) : M A := fun _ st => (Ok a, st).

Definition bind {A B : Type} (m : M A) (k : A -> M B) : M B :=
  fun w st =>
    match m w st with
    | (Ok a, st') => k a w st'
    | (Raise e, st') => (Raise e, st')
    end.

Definition raise {A : Type} (e : exn) : M A := fun _ st => (Raise e, st).

(** A pure step that may raise. *)
Definition lift {A : Type} (r : res A) : M A := fun _ st => (r, st).

Declare Scope lint_scope.
Delimit Scope lint_scope with lint.
Notation "x <- m ;; k" := (bind m (fun x => k))
  (at level 61, m at next level, right associativity) : lint_scope.
Notation "m ;; k" := (bind m (fun _ => k))
  (at level 61, right associativity) : lint_scope.
Local Open Scope lint_scope.

Definition get_self : M State := fun _ st => (Ok st, st).
Definition ask_world : M World := fun w st => (Ok w, st).

(** [self.results["checks"][name] = value] *)
Definition set_check (name : string) (value : pyval) : M unit :=
  fun _ st =>
    (Ok tt,
     {| fix_mode := fix_mode st; verbose := verbose st;
        checks := dict_set (checks st) name value;
        errors := errors st; warnings := warnings st; summary := summary st;
        log_calls := log_calls st; logged := logged st;
        spawned := spawned st |}).

(** ** [LintChecker.log] *)

Definition log (message level : string) : M unit :=
  fun w st =>
    let timestamp := strftime w (log_calls st) in
    let prefix := "[" ++ timestamp ++ "] " ++ level in
    (Ok tt,
     {| fix_mode := fix_mode st; verbose := verbose st;
        checks := checks st; errors := errors st; warnings := warnings st;
        summary := summary st;
        log_calls := S (log_calls st);
        logged :=
          if (verbose st || str_in_list level ["ERROR"; "WARN"])%bool
          then logged st ++ [prefix ++ ": " ++ message]
          else logged st;
        spawned := spawned st |}).

(** ** [LintChecker.run_command] *)

(** The call of [subprocess.run]; the trace records the vector spawned. *)
Definition run_subprocess (command : list string) (timeout : Z)
  : M (res CompletedProcess) :=
  fun w st =>
    (Ok (subprocess_run w command timeout),
     {| fix_mode := fix_mode st; verbose := verbose st;
        checks := checks st; errors := errors st; warnings := warnings st;
        summary := summary st;
        log_calls := log_calls st; logged := logged st;
        spawned := spawned st ++ [command] |}).

(** The three [return] statements of [run_command]: normal completion,
    [except subprocess.TimeoutExpired], [except Exception as e]. *)
Definition command_result (outcome : res CompletedProcess) (description : string)
  : pyval :=
  match outcome with
  | Ok result =>
      VDict [("success", VBool (returncode result =? 0));
             ("returncode", VInt (returncode result));
             ("stdout", VStr (stdout result));
             ("stderr", VStr (stderr result));
             ("description", VStr description)]
  | Raise TimeoutExpired =>
      VDict [("success", VBool false);
             ("returncode", VInt (-1));
             ("stdout", VStr "");
             ("stderr", VStr ("Command timed out after 5 minutes: " ++ description));
             ("description", VStr description)]
  | Raise (Exception text) =>
      VDict [("success", VBool false);
             ("returncode", VInt (-1));
             ("stdout", VStr "");
             ("stderr", VStr text);
             ("description", VStr description)]
  end.

(** Every caller leaves [cwd] at its default, the root directory. *)
Definition run_command (command : list string) (description : string)
  : M pyval :=
  log ("Running: " ++ str_join " " command) "INFO";;
  outcome <- run_subprocess command 300;;
  ret (command_result outcome description).

(** A [for] loop threading its variables through the body. *)
Fixpoint for_each {A V : Type} (items : list A) (body : V -> A -> M V) (vars : V)
  : M V :=
  match items with
  | [] => ret vars
  | item :: rest => vars' <- body vars item;; for_each rest body vars'
  end.

(** ** Precondition: [LintChecker.check_node_modules] *)

Definition check_node_modules : M bool :=
  w <- ask_world;;
  if negb (path_exists w "package.json") then
    log "package.json not found" "ERROR";;
    ret false
  else if negb (path_exists w "node_modules") then
    log "node_modules not found. Run 'npm install' first." "ERROR";;
    ret false
  else ret true.

(** ** The check catalog *)

Definition run_eslint : M pyval :=
  self <- get_self;;
  if fix_mode self
  then run_command ["npx"; "eslint"; "."; "--ext"; ".ts,.tsx,.js,.jsx"; "--fix"]
                   "ESLint with auto-fix"
  else run_command ["npx"; "eslint"; "."; "--ext"; ".ts,.tsx,.js,.jsx"]
                   "ESLint check".

Definition run_prettier : M pyval :=
  self <- get_self;;
  if fix_mode self
  then run_command ["npx"; "prettier"; "--write"; "."] "Prettier format"
  else run_command ["npx"; "prettier"; "--check"; "."] "Prettier check".

Definition run_typescript_check : M pyval :=
  run_command ["npx"; "tsc"; "--noEmit"] "TypeScript type check".

Definition run_drizzle_check : M pyval :=
  run_command ["npx"; "drizzle-kit"; "check"] "Drizzle schema check".

Definition test_commands : list (list string * string) :=
  [ (["npm"; "run"; "test:auth"], "Authentication tests");
    (["npm"; "run"; "test:crypto"], "Crypto utility tests");
    (["npm"; "run"; "test:csv"], "CSV processing tests");
    (["npm"; "run"; "test:substitution"], "Variable substitution tests") ].

Definition run_test_scripts : M pyval :=
  test_results <-
    for_each test_commands
      (fun (test_results : dict) '(command, description) =>
         result <- run_command command description;;
         ret (dict_set test_results description result))
      [];;
  ret (VDict test_results).

Definition required_paths : list string :=
  [ "client/src"; "server"; "worker"; "shared"; "package.json";
    "tsconfig.json"; "drizzle.config.ts"; "vite.config.ts";
    "tailwind.config.ts" ].

Definition check_file_structure : M pyval :=
  w <- ask_world;;
  let missing_paths :=
    filter (fun path => negb (path_exists w path)) required_paths in
  ret (VDict [("success", VBool (length missing_paths =? 0)%nat);
              ("missing_paths", VList (map VStr missing_paths));
              ("description", VStr "File structure check")]).

Definition check_environment_variables : M pyval :=
  w <- ask_world;;
  let env_checks : dict :=
    [("env_example_exists", VBool (path_exists w ".env.example"));
     ("env_validation_exists", VBool (path_exists w "shared/env-validation.ts"))] in
  ret (VDict [("success", VBool (forallb truthy (map snd env_checks)));
              ("checks", VDict env_checks);
              ("description", VStr "Environment configuration check")]).

(** ** Aggregation: [LintChecker.analyze_results] *)

Definition res_bind {A B : Type} (r : res A) (k : A -> res B) : res B :=
  match r with
  | Ok a => k a
  | Raise e => Raise e
  end.

Notation "x <~ r ;; k" := (res_bind r (fun x => k))
  (at level 61, r at next level, right associativity) : lint_scope.

(** The local variables of [analyze_results]. *)
Module Loop.

Record vars : Type := {
  total_checks : Z;
  successful_checks : Z;
  errors : list string;
  warnings : list string
}.

End Loop.

Definition count_check (v : Loop.vars) : Loop.vars :=
  {| Loop.total_checks := Loop.total_checks v + 1;
     Loop.successful_checks := Loop.successful_checks v;
     Loop.errors := Loop.errors v;
     Loop.warnings := Loop.warnings v |}.

Definition count_success (v : Loop.vars) : Loop.vars :=
  {| Loop.total_checks := Loop.total_checks v;
     Loop.successful_checks := Loop.successful_checks v + 1;
     Loop.errors := Loop.errors v;
     Loop.warnings := Loop.warnings v |}.

(** [errors.append(line)] *)
Definition append_error (line : string) (v : Loop.vars) : Loop.vars :=
  {| Loop.total_checks := Loop.total_checks v;
     Loop.successful_checks := Loop.successful_checks v;
     Loop.errors := Loop.errors v ++ [line];
     Loop.warnings := Loop.warnings v |}.

(** Which arm of the [if]/[elif] of the loop body is taken. *)
Inductive branch : Type :=
| IfBranch
| ElifBranch
| NoBranch.

Definition select_branch (check_name : string) (result : pyval) : branch :=
  if isinstance_dict result then IfBranch
  else if (isinstance_dict result && str_contains "tests" check_name)%bool
       then ElifBranch
       else NoBranch.

(** The body under [if isinstance(result, dict)]. *)
Definition analyze_check (v : Loop.vars) (check_name : string) (result : pyval)
  : res Loop.vars :=
  success <~ py_get result "success" (VBool false);;
  if truthy success then Ok (count_success v)
  else
    description <~ py_get result "description" (VStr "Check failed");;
    let v := append_error (check_name ++ ": " ++ py_str description) v in
    stderr_value <~ py_get result "stderr" VNone;;
    if truthy stderr_value then
      stderr_value <~ py_getitem result "stderr";;
      snippet <~ py_slice_to 200 stderr_value;;
      Ok (append_error ("  Details: " ++ py_str snippet ++ "...") v)
    else Ok v.

(** One round of the inner loop under the [elif]. *)
Definition analyze_test (v : Loop.vars) (item : string * pyval)
  : res Loop.vars :=
  let '(test_name, test_result) := item in
  let v := count_check v in
  success <~ py_get test_result "success" (VBool false);;
  if truthy success then Ok (count_success v)
  else
    description <~ py_get test_result "description" (VStr "Test failed");;
    Ok (append_error (test_name ++ ": " ++ py_str description) v).

Fixpoint res_for_each {A V : Type} (items : list A) (body : V -> A -> res V)
  (vars : V) : res V :=
  match items with
  | [] => Ok vars
  | item :: rest => vars' <~ body vars item;; res_for_each rest body vars'
  end.

(** One round of the loop over [self.results["checks"].items()]. *)
Definition analyze_item (v : Loop.vars) (item : string * pyval)
  : res Loop.vars :=
  let '(check_name, result) := item in
  let v := count_check v in
  match select_branch check_name result with
  | IfBranch => analyze_check v check_name result
  | ElifBranch =>
      tests <~ py_items result;;
      res_for_each tests analyze_test v
  | NoBranch => Ok v
  end.

Definition summarize (v : Loop.vars) : Summary :=
  let total := Loop.total_checks v in
  let successful := Loop.successful_checks v in
  {| total_checks := total;
     successful_checks := successful;
     failed_checks := total - successful;
     overall_success := successful =? total;
     success_rate :=
       if total >? 0
       then NFloat (float_of_Z successful / float_of_Z total * 100)%float
       else NInt 0 |}.

(** [total_checks = 0], [successful_checks = 0], [errors = []],
    [warnings = []]. *)
Definition start_vars : Loop.vars :=
  {| Loop.total_checks := 0; Loop.successful_checks := 0;
     Loop.errors := []; Loop.warnings := [] |}.

Definition analyze_results : M unit :=
  fun _ st =>
    match res_for_each (checks st) analyze_item start_vars with
    | Raise e => (Raise e, st)
    | Ok v =>
        (Ok tt,
         {| fix_mode := fix_mode st; verbose := verbose st;
            checks := checks st;
            errors := Loop.errors v;
            warnings := Loop.warnings v;
            summary := Some (summarize v);
            log_calls := log_calls st; logged := logged st;
            spawned := spawned st |})
    end.

(** ** [LintChecker.run_all_checks] *)

Definition run_all_checks : M bool :=
  log "Starting comprehensive code quality check..." "INFO";;
  ready <- check_node_modules;;
  if negb ready then ret false
  else
    r <- run_eslint;; set_check "eslint" r;;
    r <- run_prettier;; set_check "prettier" r;;
    r <- run_typescript_check;; set_check "typescript" r;;
    r <- run_drizzle_check;; set_check "drizzle" r;;
    r <- check_file_structure;; set_check "file_structure" r;;
    r <- check_environment_variables;; set_check "environment" r;;
    r <- run_test_scripts;; set_check "tests" r;;
    analyze_results;;
    self <- get_self;;
    match summary self with
    | Some s => ret (overall_success s)
    | None => raise (Exception "'overall_success'")
    end.

(** ** [LintChecker.print_summary] and [LintChecker.save_results] *)

(** Reading [summary['total_checks']] raises [KeyError] while the summary
    is the empty dict. *)
Definition print_summary : M unit :=
  self <- get_self;;
  match summary self with
  | Some _ => ret tt
  | None => raise (Exception "'total_checks'")
  end.

Definition save_results (output_file : string) : M unit :=
  w <- ask_world;;
  match open_for_writing w output_file with
  | Some text => raise (Exception text)
  | None => log ("Detailed results saved to: " ++ output_file) "INFO"
  end.

(** ** [main] *)

(** The parsed command line. *)
Record Args : Type := {
  arg_fix : bool;
  arg_check_only : bool;
  arg_verbose : bool;
  arg_save_results : bool
}.

(** The exit code of the process and the final state. [sys.exit] raises
    [SystemExit], which [except Exception] does not catch; every
    exception of the model is an [Exception]. *)
Definition main (args : Args) (w : World) : Z * State :=
  let fix_ := (arg_fix args && negb (arg_check_only args))%bool in
  let checker := LintChecker fix_ (arg_verbose args) in
  let body : M bool :=
    success <- run_all_checks;;
    print_summary;;
    (if arg_save_results args then save_results "lint_results.json" else ret tt);;
    ret success in
  match body w checker with
  | (Ok success, st) => (if success then 0 else 1, st)
  | (Raise _, st) => (1, st)
  end.

(* ================================================================== *)
(** ** Vocabulary of the specification *)
(* ================================================================== *)

(** The command exceeds the time limit of [limit] seconds. *)
Definition exceeds_timeout (w : World) (command : list string) (limit : Z) : Prop :=
  spawn w command = Hangs \/
  exists seconds rc out err,
    spawn w command = Exits seconds rc out err /\ (inject_Z limit < seconds)%Q.

(** The argument vectors of the catalog, in the order the run spawns them. *)
Definition catalog (fix_ : bool) : list (list string) :=
  [ if fix_
    then ["npx"; "eslint"; "."; "--ext"; ".ts,.tsx,.js,.jsx"; "--fix"]
    else ["npx"; "eslint"; "."; "--ext"; ".ts,.tsx,.js,.jsx"];
    if fix_
    then ["npx"; "prettier"; "--write"; "."]
    else ["npx"; "prettier"; "--check"; "."];
    ["npx"; "tsc"; "--noEmit"];
    ["npx"; "drizzle-kit"; "check"] ]
  ++ map fst test_commands.

(** The names under which [run_all_checks] records its checks. *)
Definition check_names : list string :=
  [ "eslint"; "prettier"; "typescript"; "drizzle"; "file_structure";
    "environment"; "tests" ].

(** The flat count of the specification: every plain check counts once,
    and the test batch counts once per entry, not once as a group. *)
Definition spec_flat_count (report : dict) : Z :=
  fold_right
    (fun '(check_name, result) n =>
       match result with
       | VDict entries =>
           if String.eqb check_name "tests"
           then Z.of_nat (length entries) + n
           else 1 + n
       | _ => 1 + n
       end)
    0 report.

(** [result.get("success", False)] is true: the entry counts as passed. *)
Definition entry_succeeded (result : pyval) : bool :=
  match py_get result "success" (VBool false) with
  | Ok s => truthy s
  | Raise _ => false
  end.

(** *** Sample worlds and inputs *)

Definition argv_eqb (a b : list string) : bool :=
  if list_eq_dec string_dec a b then true else false.

(** Every command exits at once with code 0; every path exists. *)
Definition all_pass_world : World :=
  {| spawn := fun _ => Exits 1 0 "ok" "";
     path_exists := fun _ => true;
     strftime := fun _ => "12:00:00";
     open_for_writing := fun _ => None |}.

(** As [all_pass_world], but [npm run test:auth] exits with code 1. *)
Definition auth_test_fails_world : World :=
  {| spawn := fun command =>
       if argv_eqb command ["npm"; "run"; "test:auth"]
       then Exits 2 1 "" "auth: 1 test failed"
       else Exits 1 0 "ok" "";
     path_exists := fun _ => true;
     strftime := fun _ => "12:00:00";
     open_for_writing := fun _ => None |}.

(** As [all_pass_world], but the type checker never exits and the lint
    tool cannot be started. *)
Definition slow_tsc_world : World :=
  {| spawn := fun command =>
       if argv_eqb command ["npx"; "tsc"; "--noEmit"] then Hangs
       else if argv_eqb command ["npx"; "eslint"; "."; "--ext"; ".ts,.tsx,.js,.jsx"]
       then LaunchFails "[Errno 2] No such file or directory: 'npx'"
       else Exits 1 0 "ok" "";
     path_exists := fun _ => true;
     strftime := fun _ => "12:00:00";
     open_for_writing := fun _ => None |}.

(** The manifest is there, the installed dependencies are not. *)
Definition no_node_modules_world : World :=
  {| spawn := fun _ => Exits 1 0 "ok" "";
     path_exists := fun path => negb (String.eqb path "node_modules");
     strftime := fun _ => "12:00:00";
     open_for_writing := fun _ => None |}.

Definition default_args : Args :=
  {| arg_fix := false; arg_check_only := false;
     arg_verbose := false; arg_save_results := false |}.

Definition passed (description : string) : pyval :=
  command_result (Ok {| returncode := 0; stdout := ""; stderr := "" |}) description.

Definition failed (description err : string) : pyval :=
  command_result (Ok {| returncode := 2; stdout := ""; stderr := err |}) description.

(** Four plain checks, three of which succeeded. *)
Definition three_of_four : State :=
  {| fix_mode := false; verbose := false;
     checks := [("eslint", passed "ESLint check");
                ("prettier", failed "Prettier check" "2 files need formatting");
                ("typescript", passed "TypeScript type check");
                ("drizzle", passed "Drizzle schema check")];
     errors := []; warnings := []; summary := None;
     log_calls := 0; logged := []; spawned := [] |}.

(* ================================================================== *)
(** ** Auxiliary definitions for the proofs *)
(* ================================================================== *)

(** The state in which [run_all_checks] calls [analyze_results] when the
    precondition holds. *)
Definition gathered (w : World) (fix_ verbose_ : bool) : State :=
  snd ((log "Starting comprehensive code quality check..." "INFO";;
        r <- run_eslint;; set_check "eslint" r;;
        r <- run_prettier;; set_check "prettier" r;;
        r <- run_typescript_check;; set_check "typescript" r;;
        r <- run_drizzle_check;; set_check "drizzle" r;;
        r <- check_file_structure;; set_check "file_structure" r;;
        r <- check_environment_variables;; set_check "environment" r;;
        r <- run_test_scripts;; set_check "tests" r)
         w (LintChecker fix_ verbose_)).

(** A dict entry whose [stderr], when there is one, can be sliced. *)
Definition stderr_sliceable (result : pyval) : bool :=
  match result with
  | VDict d =>
      match dict_lookup d "stderr" with
      | None | Some VNone | Some (VStr _) | Some (VList _) => true
      | Some _ => false
      end
  | _ => true
  end.

(** The message of the failing precondition. *)
Definition precondition_message (w : World) : string :=
  if path_exists w "package.json"
  then "node_modules not found. Run 'npm install' first."
  else "package.json not found".

(** *** Vocabulary of the further properties *)

(** The line [log] prints at its [n]-th call. *)
Definition log_line (w : World) (n : nat) (level message : string) : string :=
  ("[" ++ strftime w n ++ "] " ++ level) ++ ": " ++ message.

(** The progress lines of a run up to the aggregation: the opening line,
    then one line per command of the catalog. *)
Definition progress_lines (w : World) (fix_ : bool) : list string :=
  log_line w 0 "INFO" "Starting comprehensive code quality check..."
  :: map (fun '(n, command) =>
            log_line w n "INFO" ("Running: " ++ str_join " " command))
         (combine (seq 1 8) (catalog fix_)).

(** The line logged once the report is saved. *)
Definition saved_line (w : World) (n : nat) : string :=
  log_line w n "INFO" "Detailed results saved to: lint_results.json".

(** How many entries of a report count as passed. *)
Definition count_succeeded (report : dict) : Z :=
  Z.of_nat (length (filter (fun item => entry_succeeded (snd item)) report)).

(** Some spawned argument vector holds [flag]. *)
Definition passes_flag (flag : string) (st : State) : bool :=
  existsb (str_in_list flag) (spawned st).

(** The keys of every result of [run_command], in order. *)
Definition result_keys : list string :=
  ["success"; "returncode"; "stdout"; "stderr"; "description"].

(** Every path exists but the directory [worker] and [.env.example]. *)
Definition no_worker_world : World :=
  {| spawn := fun _ => Exits 1 0 "ok" "";
     path_exists := fun path =>
       negb (String.eqb path "worker" || String.eqb path ".env.example");
     strftime := fun _ => "12:00:00";
     open_for_writing := fun _ => None |}.

(** The linter exits with code 2 after 12 seconds. *)
Definition lint_fails_world : World :=
  {| spawn := fun command =>
       if argv_eqb command ["npx"; "eslint"; "."; "--ext"; ".ts,.tsx,.js,.jsx"]
       then Exits 12 2 "" "3 problems (3 errors, 0 warnings)"
       else Exits 1 0 "ok" "";
     path_exists := fun _ => true;
     strftime := fun _ => "12:00:00";
     open_for_writing := fun _ => None |}.

(** The six plain entries of the report of a run, as the world decides
    them. *)
Definition plain_checks (w : World) (fix_ : bool) : dict :=
  let run command description :=
    command_result (subprocess_run w command 300) description in
  let missing_paths :=
    filter (fun path => negb (path_exists w path)) required_paths in
  let env_checks : dict :=
    [("env_example_exists", VBool (path_exists w ".env.example"));
     ("env_validation_exists", VBool (path_exists w "shared/env-validation.ts"))] in
  [("eslint", run (nth 0 (catalog fix_) [])
                  (if fix_ then "ESLint with auto-fix" else "ESLint check"));
   ("prettier", run (nth 1 (catalog fix_) [])
                    (if fix_ then "Prettier format" else "Prettier check"));
   ("typescript", run ["npx"; "tsc"; "--noEmit"] "TypeScript type check");
   ("drizzle", run ["npx"; "drizzle-kit"; "check"] "Drizzle schema check");
   ("file_structure",
    VDict [("success", VBool (length missing_paths =? 0)%nat);
           ("missing_paths", VList (map VStr missing_paths));
           ("description", VStr "File structure check")]);
   ("environment",
    VDict [("success", VBool (forallb truthy (map snd env_checks)));
           ("checks", VDict env_checks);
           ("description", VStr "Environment configuration check")])].


(** A report with a failed entry whose [stderr] is the integer 2. *)
Definition odd_report : State :=
  {| fix_mode := false; verbose := false;
     checks := [("eslint", passed "ESLint check");
                ("custom", VDict [("success", VBool false);
                                  ("stderr", VInt 2)])];
     errors := []; warnings := []; summary := None;
     log_calls := 0; logged := []; spawned := [] |}.

(** Symbolic execution of a run: the world, the commands' outcomes and
    the tests on paths stay folded. *)
Ltac run_steps :=
  lazy -[analyze_results subprocess_run command_result path_exists strftime
         open_for_writing String.append filter forallb stderr_sliceable
         dict_lookup].

Ltac vars_simpl := unfold count_check, count_success, append_error; simpl.

(* ================================================================== *)
(** ** Lemmas *)
(* ================================================================== *)

(** ** Text *)

Lemma prefix_app (sub rest : string) : String.prefix sub (sub ++ rest) = true.
Proof.
  induction sub as [|c sub IH]; simpl.
  - destruct rest; reflexivity.
  - destruct (ascii_dec c c) as [_|ne]; [exact IH | now elim ne].
Qed.

Lemma str_contains_unfold (sub s : string) :
  str_contains sub s =
  if String.prefix sub s then true
  else match s with
       | EmptyString => false
       | String _ s' => str_contains sub s'
       end.
Proof. destruct s; reflexivity. Qed.

Lemma str_contains_here (sub rest : string) :
  str_contains sub (sub ++ rest) = true.
Proof. rewrite str_contains_unfold, prefix_app. reflexivity. Qed.

Lemma str_contains_skip (sub pre s : string) :
  str_contains sub s = true -> str_contains sub (pre ++ s) = true.
Proof.
  intros H. induction pre as [|c pre IH]; [exact H|].
  change (String c pre ++ s) with (String c (pre ++ s)).
  rewrite str_contains_unfold, IH.
  now destruct (String.prefix sub (String c (pre ++ s))).
Qed.

Lemma str_contains_end (sub pre : string) :
  str_contains sub (pre ++ sub) = true.
Proof.
  apply str_contains_skip.
  replace sub with (sub ++ "") at 2; [apply str_contains_here|].
  induction sub as [|c sub IH]; simpl; congruence.
Qed.

(** ** The branches of the aggregation loop *)

Lemma select_branch_dict check_name d :
  select_branch check_name (VDict d) = IfBranch.
Proof. reflexivity. Qed.

Lemma select_branch_other check_name result :
  isinstance_dict result = false -> select_branch check_name result = NoBranch.
Proof. unfold select_branch. now intros ->. Qed.

Lemma select_branch_cases check_name result :
  (isinstance_dict result = true /\ select_branch check_name result = IfBranch) \/
  (isinstance_dict result = false /\ select_branch check_name result = NoBranch).
Proof.
  destruct (isinstance_dict result) eqn:E; [left | right]; split; trivial.
  - unfold select_branch. now rewrite E.
  - now apply select_branch_other.
Qed.

(** ** Counting *)

Lemma analyze_check_counts v check_name result v' :
  analyze_check v check_name result = Ok v' ->
  Loop.total_checks v' = Loop.total_checks v /\
  Loop.successful_checks v <= Loop.successful_checks v' <= Loop.successful_checks v + 1 /\
  Loop.warnings v' = Loop.warnings v.
Proof.
  unfold analyze_check, res_bind.
  destruct (py_get result "success" (VBool false)) as [s|]; [|discriminate].
  destruct (truthy s).
  - intros [= <-]. vars_simpl; repeat split; (lia || reflexivity).
  - destruct (py_get result "description" _) as [d|]; [|discriminate].
    destruct (py_get result "stderr" VNone) as [e|]; [|discriminate].
    destruct (truthy e).
    + destruct (py_getitem result "stderr") as [e'|]; [|discriminate].
      destruct (py_slice_to 200 e') as [sn|]; [|discriminate].
      intros [= <-]. vars_simpl; repeat split; (lia || reflexivity).
    + intros [= <-]. vars_simpl; repeat split; (lia || reflexivity).
Qed.

Lemma analyze_item_counts v item v' :
  analyze_item v item = Ok v' ->
  Loop.total_checks v' = Loop.total_checks v + 1 /\
  Loop.successful_checks v <= Loop.successful_checks v' <= Loop.successful_checks v + 1 /\
  Loop.warnings v' = Loop.warnings v.
Proof.
  destruct item as [check_name result]. unfold analyze_item.
  destruct (select_branch_cases check_name result) as [[_ ->]|[_ ->]].
  - intros H. apply analyze_check_counts in H. unfold count_check in H; simpl in H. exact H.
  - intros [= <-]. vars_simpl; repeat split; (lia || reflexivity).
Qed.

Lemma loop_counts items : forall v v',
  res_for_each items analyze_item v = Ok v' ->
  Loop.total_checks v' = Loop.total_checks v + Z.of_nat (length items) /\
  Loop.successful_checks v <= Loop.successful_checks v'
    <= Loop.successful_checks v + Z.of_nat (length items) /\
  Loop.warnings v' = Loop.warnings v.
Proof.
  induction items as [|item items IH]; intros v v'.
  - intros [= <-]. vars_simpl; repeat split; (lia || reflexivity).
  - cbn [res_for_each]. unfold res_bind at 1.
    destruct (analyze_item v item) as [v1|] eqn:E; [|discriminate].
    intros H. apply IH in H. apply analyze_item_counts in E.
    cbn [length]. rewrite Nat2Z.inj_succ. 
    destruct H as (? & ? & ?), E as (? & ? & ?). repeat split; try lia; congruence.
Qed.

Lemma res_for_each_app {A V} (body : V -> A -> res V) xs ys : forall v,
  res_for_each (xs ++ ys) body v =
  res_bind (res_for_each xs body v) (res_for_each ys body).
Proof.
  induction xs as [|x xs IH]; intros v; simpl; [reflexivity|].
  destruct (body v x); simpl; [apply IH | reflexivity].
Qed.

(** ** Entries that the loop can digest *)

Lemma analyze_item_returns v item :
  stderr_sliceable (snd item) = true -> exists v', analyze_item v item = Ok v'.
Proof.
  destruct item as [check_name result]. simpl. intros H.
  unfold analyze_item.
  destruct (select_branch_cases check_name result) as [[D ->]|[_ ->]];
    [|eexists; reflexivity].
  destruct result as [| | | | |d]; try discriminate.
  unfold analyze_check, py_get, py_getitem, res_bind. simpl in H.
  destruct (truthy match dict_lookup d "success" with Some x => x | None => VBool false end);
    [eexists; reflexivity|].
  destruct (dict_lookup d "stderr") as [e|]; [|eexists; reflexivity].
  destruct e; try discriminate; simpl;
    match goal with
    | |- context [if ?c then _ else _] => destruct c
    | _ => idtac
    end; eexists; reflexivity.
Qed.

Lemma loop_returns items : forall v,
  forallb stderr_sliceable (map snd items) = true ->
  exists v', res_for_each items analyze_item v = Ok v'.
Proof.
  induction items as [|item items IH]; intros v H; simpl in *.
  - eexists; reflexivity.
  - apply andb_true_iff in H as [H1 H2].
    destruct (analyze_item_returns v item H1) as [v1 ->]. simpl. now apply IH.
Qed.

Lemma command_result_sliceable outcome description :
  stderr_sliceable (command_result outcome description) = true.
Proof. destruct outcome as [r|[|text]]; reflexivity. Qed.

Lemma analyze_item_without_success v check_name d :
  dict_lookup d "success" = None ->
  dict_lookup d "description" = None ->
  dict_lookup d "stderr" = None ->
  analyze_item v (check_name, VDict d) =
  Ok (append_error (check_name ++ ": Check failed") (count_check v)).
Proof.
  intros Hs Hd He. unfold analyze_item. rewrite select_branch_dict.
  unfold analyze_check, py_get, res_bind. rewrite Hs, Hd, He. reflexivity.
Qed.

(** ** What a run gathers *)

Lemma gathered_spawned w f v : spawned (gathered w f v) = catalog f.
Proof. destruct f; lazy; reflexivity. Qed.

Lemma gathered_names w f v : map fst (checks (gathered w f v)) = check_names.
Proof. destruct f; lazy; reflexivity. Qed.

Lemma gathered_fix_mode w f v : fix_mode (gathered w f v) = f.
Proof. destruct f; lazy; reflexivity. Qed.

Lemma gathered_split w f v :
  exists plain batch,
    checks (gathered w f v) = (plain ++ [("tests", VDict batch)])%list /\
    length plain = 6%nat /\
    forallb stderr_sliceable (map snd plain) = true /\
    map fst batch = map snd test_commands /\
    dict_lookup batch "success" = None /\
    dict_lookup batch "description" = None /\
    dict_lookup batch "stderr" = None.
Proof.
  unfold gathered.
  destruct f; run_steps;
    (eexists [_; _; _; _; _; _], _; split; [reflexivity|]);
    (split; [reflexivity|]);
    (split; [cbn [map snd forallb]; rewrite !command_result_sliceable; reflexivity|]);
    repeat split; reflexivity.
Qed.

Lemma run_all_checks_gathered w f v :
  path_exists w "package.json" = true ->
  path_exists w "node_modules" = true ->
  run_all_checks w (LintChecker f v) =
  (analyze_results;;
   self <- get_self;;
   match summary self with
   | Some s => ret (overall_success s)
   | None => raise (Exception "'overall_success'")
   end) w (gathered w f v).
Proof.
  intros Hp Hn.
  unfold run_all_checks, gathered.
  destruct f, v; run_steps; rewrite Hp, Hn; run_steps; reflexivity.
Qed.

Lemma analysis_of_gathered w f v :
  exists v2,
    res_for_each (checks (gathered w f v)) analyze_item start_vars = Ok v2 /\
    Loop.total_checks v2 = 7 /\
    0 <= Loop.successful_checks v2 <= 6 /\
    In "tests: Check failed" (Loop.errors v2).
Proof.
  destruct (gathered_split w f v)
    as (plain & batch & -> & Hlen & Hok & _ & Hs & Hd & He).
  destruct (loop_returns plain start_vars Hok) as [v1 H1].
  pose proof (loop_counts _ _ _ H1) as (Ht & Hsucc & _).
  rewrite Hlen in Ht, Hsucc. cbn in Ht, Hsucc.
  exists (append_error "tests: Check failed" (count_check v1)).
  rewrite res_for_each_app, H1. cbn [res_bind res_for_each].
  rewrite (analyze_item_without_success v1 "tests" batch Hs Hd He).
  split; [reflexivity|]. vars_simpl.
  repeat split; try lia.
  apply in_or_app. right. now left.
Qed.

Lemma analyze_results_eq w st v2 :
  res_for_each (checks st) analyze_item start_vars = Ok v2 ->
  analyze_results w st =
  (Ok tt,
   {| fix_mode := fix_mode st; verbose := verbose st; checks := checks st;
      errors := Loop.errors v2; warnings := Loop.warnings v2;
      summary := Some (summarize v2);
      log_calls := log_calls st; logged := logged st;
      spawned := spawned st |}).
Proof. unfold analyze_results. now intros ->. Qed.

Lemma main_completes args w :
  path_exists w "package.json" = true ->
  path_exists w "node_modules" = true ->
  let f := (arg_fix args && negb (arg_check_only args))%bool in
  let g := gathered w f (arg_verbose args) in
  exists v2,
    res_for_each (checks g) analyze_item start_vars = Ok v2 /\
    Loop.total_checks v2 = 7 /\
    0 <= Loop.successful_checks v2 <= 6 /\
    In "tests: Check failed" (Loop.errors v2) /\
    fst (main args w) = 1 /\
    fix_mode (snd (main args w)) = f /\
    checks (snd (main args w)) = checks g /\
    errors (snd (main args w)) = Loop.errors v2 /\
    summary (snd (main args w)) = Some (summarize v2) /\
    spawned (snd (main args w)) = catalog f.
Proof.
  intros Hp Hn f g.
  destruct (analysis_of_gathered w f (arg_verbose args))
    as (v2 & Hv & Ht & Hs & Hin).
  exists v2. do 4 (split; [assumption|]).
  fold g.
  assert (Hover : overall_success (summarize v2) = false).
  { unfold summarize; cbn [overall_success]. apply Z.eqb_neq. lia. }
  pose proof (gathered_spawned w f (arg_verbose args)) as Hsp.
  pose proof (gathered_fix_mode w f (arg_verbose args)) as Hfix.
  fold g in Hsp, Hfix, Hv.
  assert (Hmain : exists st,
             main args w = (1, st) /\ fix_mode st = f /\ checks st = checks g /\
             errors st = Loop.errors v2 /\ summary st = Some (summarize v2) /\
             spawned st = catalog f).
  { unfold main. fold f.
    unfold bind at 1.
    rewrite (run_all_checks_gathered w f (arg_verbose args) Hp Hn).
    fold g. clearbody g.
    unfold bind at 1.
    rewrite (analyze_results_eq w g v2 Hv).
    unfold bind at 1, get_self at 1. cbn [summary]. unfold ret at 1.
    rewrite Hover.
    unfold bind at 1, print_summary at 1, bind at 1, get_self at 1.
    cbn [summary]. unfold ret at 1.
    destruct (arg_save_results args).
    - unfold bind at 1, save_results at 1, bind at 1, ask_world at 1.
      destruct (open_for_writing w "lint_results.json").
      + unfold raise. eexists; split; [reflexivity|].
        cbn. repeat split; assumption || reflexivity.
      + unfold log, bind, ret. eexists; split; [reflexivity|].
        cbn. repeat split; assumption || reflexivity.
    - unfold bind, ret. eexists; split; [reflexivity|].
      cbn. repeat split; assumption || reflexivity. }
  destruct Hmain as (st & -> & H). exact (conj eq_refl H).
Qed.

Lemma main_aborts args w :
  path_exists w "package.json" = false \/ path_exists w "node_modules" = false ->
  exists st earlier,
    main args w = (1, st) /\
    fix_mode st = (arg_fix args && negb (arg_check_only args))%bool /\
    checks st = [] /\ errors st = [] /\ summary st = None /\ spawned st = [] /\
    logged st =
      List.app earlier
        [("[" ++ strftime w 1 ++ "] " ++ "ERROR") ++ ": " ++ precondition_message w].
Proof.
  intros H. unfold precondition_message, main.
  set (f := (arg_fix args && negb (arg_check_only args))%bool). clearbody f.
  destruct (path_exists w "package.json") eqn:Hp.
  - destruct H as [H|Hn]; [discriminate|].
    destruct (arg_verbose args), (arg_save_results args);
      run_steps; rewrite Hp, Hn; run_steps;
      (eexists _, [_] + eexists _, []);
      repeat split; reflexivity.
  - clear H.
    destruct (arg_verbose args), (arg_save_results args);
      run_steps; rewrite Hp; run_steps;
      (eexists _, [_] + eexists _, []);
      repeat split; reflexivity.
Qed.

Lemma analyze_results_returns w st :
  forallb stderr_sliceable (map snd (checks st)) = true ->
  exists st', analyze_results w st = (Ok tt, st').
Proof.
  intros H. destruct (loop_returns (checks st) start_vars H) as [v Hv].
  rewrite (analyze_results_eq w st v Hv). eexists; reflexivity.
Qed.

(** ** Log lines *)

Lemma str_app_assoc (a b c : string) : (a ++ b) ++ c = a ++ b ++ c.
Proof. induction a as [|x a IH]; simpl; congruence. Qed.

Lemma log_line_has_level timestamp level message :
  str_contains level (("[" ++ timestamp ++ "] " ++ level) ++ ": " ++ message)
  = true.
Proof.
  rewrite !str_app_assoc.
  do 3 apply str_contains_skip. apply str_contains_here.
Qed.

Lemma log_line_has_message part prefix message :
  str_contains part message = true ->
  str_contains part (prefix ++ ": " ++ message) = true.
Proof. intros H. now do 2 apply str_contains_skip. Qed.

(** ** The command runner *)

Lemma exceeds_timeout_raises w command :
  exceeds_timeout w command 300 ->
  subprocess_run w command 300 = Raise TimeoutExpired.
Proof.
  unfold subprocess_run.
  intros [-> | (seconds & rc & out & err & -> & Hlt)]; [reflexivity|].
  destruct (Qle_bool seconds (inject_Z 300)) eqn:E; [|reflexivity].
  apply Qle_bool_iff in E. exfalso. exact (Qlt_not_le _ _ Hlt E).
Qed.

Lemma run_command_result command description w st :
  fst (run_command command description w st) =
  Ok (command_result (subprocess_run w command 300) description).
Proof. reflexivity. Qed.

(** A plain check that failed is reported: one line with the name of the
    check and its label, then, when the captured error stream is not
    empty, its first 200 characters. *)
Lemma failing_command_reported v check_name outcome description :
  let result := command_result outcome description in
  entry_succeeded result = false ->
  exists err,
    dict_lookup
      match result with VDict d => d | _ => [] end "stderr" = Some (VStr err) /\
    analyze_item v (check_name, result) =
    Ok (let reported :=
          append_error (check_name ++ ": " ++ description) (count_check v) in
        if String.eqb err "" then reported
        else append_error ("  Details: " ++ str_take 200 err ++ "...") reported).
Proof.
  intros result. subst result.
  destruct outcome as [[rc out err]|[|text]];
    unfold entry_succeeded; cbn [command_result py_get dict_lookup String.eqb
                                   Ascii.eqb Bool.eqb truthy returncode stderr].
  - intros H. exists err. split; [reflexivity|].
    unfold analyze_item. rewrite select_branch_dict.
    unfold analyze_check, py_get, py_getitem, res_bind.
    cbn [dict_lookup String.eqb Ascii.eqb Bool.eqb truthy returncode stderr stdout].
    rewrite H. cbn [py_str].
    destruct (String.eqb err ""); reflexivity.
  - intros _. eexists. split; [reflexivity|].
    unfold analyze_item. rewrite select_branch_dict. reflexivity.
  - intros _. exists text. split; [reflexivity|].
    unfold analyze_item. rewrite select_branch_dict.
    unfold analyze_check, py_get, py_getitem, res_bind.
    cbn [dict_lookup String.eqb Ascii.eqb Bool.eqb truthy].
    cbn [py_str].
    destruct (String.eqb text ""); reflexivity.
Qed.

(* ================================================================== *)
(** ** The claims of the specification *)
(* ================================================================== *)

(** C1. The specification asks for [total_checks] to be the flat count,
    every entry of the test batch counted on its own: 10 for 6 plain
    checks and 4 tests. On a run in which every command exits with code 0
    and every path exists, the code reports 7: the test batch is counted
    once, as a group, while the flat count of the same report is 10. *)
Theorem total_checks_counts_test_group_once :
  let st := snd (main default_args all_pass_world) in
  option_map total_checks (summary st) = Some 7 /\
  spec_flat_count (checks st) = 10.
Proof. vm_compute. split; reflexivity. Qed.

(** C2. The specification asks for [overall_success = true] and exit code
    0 when every command exits with code 0 and no path is missing. On
    such a run every command result and both structural checks have
    [success = true], yet the summary has [overall_success = false] and
    the process exits with code 1. *)
Theorem all_commands_pass_yet_run_fails :
  let st := snd (main default_args all_pass_world) in
  (forall command description,
     entry_succeeded
       (command_result (subprocess_run all_pass_world command 300) description)
     = true) /\
  option_map entry_succeeded (dict_lookup (checks st) "file_structure")
    = Some true /\
  option_map entry_succeeded (dict_lookup (checks st) "environment")
    = Some true /\
  option_map overall_success (summary st) = Some false /\
  fst (main default_args all_pass_world) = 1.
Proof. vm_compute. repeat split; reflexivity. Qed.

(** C3. Whenever the precondition holds, so that [run_all_checks] reaches
    [analyze_results], whatever the commands do: the entry ["tests"] of
    the report is the nested mapping of the four test results, it has no
    key ["success"], [analyze_results] counts it as exactly one check and
    as failed (one more check, no more success, the error line
    ["tests: Check failed"]); so 7 checks are counted, [failed_checks] is
    at least 1, [overall_success] is false and the exit code is 1. *)
Theorem tests_group_always_fails args w :
  path_exists w "package.json" = true ->
  path_exists w "node_modules" = true ->
  exists batch s,
    dict_lookup (checks (snd (main args w))) "tests" = Some (VDict batch) /\
    map fst batch = map snd test_commands /\
    dict_lookup batch "success" = None /\
    (forall v,
       analyze_item v ("tests", VDict batch) =
       Ok (append_error "tests: Check failed" (count_check v))) /\
    summary (snd (main args w)) = Some s /\
    total_checks s = 7 /\
    1 <= failed_checks s /\
    overall_success s = false /\
    In "tests: Check failed" (errors (snd (main args w))) /\
    fst (main args w) = 1.
Proof.
  intros Hp Hn.
  destruct (main_completes args w Hp Hn)
    as (v2 & _ & Ht & Hs & Hin & Hexit & _ & Hchecks & Herr & Hsum & _).
  set (f := (arg_fix args && negb (arg_check_only args))%bool) in *.
  destruct (gathered_split w f (arg_verbose args))
    as (plain & batch & Hsplit & Hlen & _ & Hkeys & Hsucc & Hdesc & Hstderr).
  exists batch, (summarize v2).
  split.
  { rewrite Hchecks.
    pose proof (gathered_names w f (arg_verbose args)) as Hnames.
    rewrite Hsplit in Hnames |- *.
    destruct plain
      as [|[n1 r1] [|[n2 r2] [|[n3 r3] [|[n4 r4] [|[n5 r5] [|[n6 r6] [|? ?]]]]]]];
      try discriminate.
    injection Hnames as -> -> -> -> -> ->. reflexivity. }
  split; [exact Hkeys|]. split; [exact Hsucc|]. split.
  { intros v. now apply analyze_item_without_success. }
  split; [exact Hsum|].
  unfold summarize. cbn [total_checks failed_checks overall_success].
  split; [exact Ht|]. split; [lia|]. split; [apply Z.eqb_neq; lia|].
  split; [now rewrite Herr | exact Hexit].
Qed.

Lemma tests_group_always_fails_witness :
  exists batch s,
    dict_lookup (checks (snd (main default_args all_pass_world))) "tests"
      = Some (VDict batch) /\
    map fst batch = map snd test_commands /\
    dict_lookup batch "success" = None /\
    (forall v,
       analyze_item v ("tests", VDict batch) =
       Ok (append_error "tests: Check failed" (count_check v))) /\
    summary (snd (main default_args all_pass_world)) = Some s /\
    total_checks s = 7 /\
    1 <= failed_checks s /\
    overall_success s = false /\
    In "tests: Check failed" (errors (snd (main default_args all_pass_world))) /\
    fst (main default_args all_pass_world) = 1.
Proof.
  apply (tests_group_always_fails default_args all_pass_world); reflexivity.
Defined.

(** C4. When [analyze_results] returns, the summary it stored satisfies:
    [total_checks = successful_checks + failed_checks]; [overall_success]
    is true exactly when [failed_checks = 0]; [success_rate] is
    [successful_checks / total_checks * 100] in binary64 arithmetic when
    [total_checks > 0] and the integer 0 when [total_checks = 0]; and 3
    successes with 1 failure give the rate 75.0. *)
Theorem summary_invariants w st st' :
  analyze_results w st = (Ok tt, st') ->
  exists s,
    summary st' = Some s /\
    total_checks s = successful_checks s + failed_checks s /\
    (overall_success s = true <-> failed_checks s = 0) /\
    success_rate s =
      (if total_checks s >? 0
       then NFloat (float_of_Z (successful_checks s)
                    / float_of_Z (total_checks s) * 100)%float
       else NInt 0) /\
    (total_checks s = 0 -> success_rate s = NInt 0) /\
    (successful_checks s = 3 -> failed_checks s = 1 ->
     success_rate s = NFloat 75%float).
Proof.
  unfold analyze_results.
  destruct (res_for_each (checks st) analyze_item start_vars) as [v|e];
    [|discriminate].
  intros [= <-]. exists (summarize v). cbn [summary].
  unfold summarize.
  cbn [total_checks successful_checks failed_checks overall_success success_rate].
  split; [reflexivity|]. split; [lia|]. split.
  { rewrite Z.eqb_eq. lia. }
  split; [reflexivity|]. split.
  - intros ->. reflexivity.
  - intros -> H.
    replace (Loop.total_checks v) with 4 by lia. reflexivity.
Qed.

Lemma summary_invariants_witness :
  exists s,
    summary (snd (analyze_results all_pass_world three_of_four)) = Some s /\
    total_checks s = successful_checks s + failed_checks s /\
    (overall_success s = true <-> failed_checks s = 0) /\
    success_rate s =
      (if total_checks s >? 0
       then NFloat (float_of_Z (successful_checks s)
                    / float_of_Z (total_checks s) * 100)%float
       else NInt 0) /\
    (total_checks s = 0 -> success_rate s = NInt 0) /\
    (successful_checks s = 3 -> failed_checks s = 1 ->
     success_rate s = NFloat 75%float).
Proof.
  apply (summary_invariants all_pass_world three_of_four).
  vm_compute. reflexivity.
Defined.

(** Three successes out of four checks: the stored rate is 75.0. *)
Example three_of_four_rate :
  option_map success_rate
    (summary (snd (analyze_results all_pass_world three_of_four)))
  = Some (NFloat 75%float).
Proof. vm_compute. reflexivity. Qed.

(** C5. The specification asks that every failing check, each entry of
    the test batch included, has a line naming its label in the error
    list. On a run in which only [npm run test:auth] fails (exit code 1),
    its result has [success = false], but the error list is the single
    line ["tests: Check failed"]: no line names ["Authentication tests"].
    The exit code is 1. *)
Theorem failing_test_entry_not_named :
  let st := snd (main default_args auth_test_fails_world) in
  entry_succeeded
    (command_result
       (subprocess_run auth_test_fails_world ["npm"; "run"; "test:auth"] 300)
       "Authentication tests") = false /\
  errors st = ["tests: Check failed"] /\
  existsb (str_contains "Authentication tests") (errors st) = false /\
  fst (main default_args auth_test_fails_world) = 1.
Proof. vm_compute. repeat split; reflexivity. Qed.

(** C6. When a command runs for more than 300 seconds (or never exits),
    [run_command] returns, without raising, a result with
    [success = false], exit code -1 and an error text that contains the
    label and the words "timed out". The run is not aborted: whenever the
    precondition holds, whatever the commands do, it spawns every command
    of the catalog, in order, and records all seven checks. *)
Theorem timeout_recorded_and_run_continues args w command description st :
  exceeds_timeout w command 300 ->
  path_exists w "package.json" = true ->
  path_exists w "node_modules" = true ->
  let message := "Command timed out after 5 minutes: " ++ description in
  fst (run_command command description w st) =
    Ok (VDict [("success", VBool false);
               ("returncode", VInt (-1));
               ("stdout", VStr "");
               ("stderr", VStr message);
               ("description", VStr description)]) /\
  str_contains "timed out" message = true /\
  str_contains description message = true /\
  spawned (snd (main args w)) =
    catalog (arg_fix args && negb (arg_check_only args)) /\
  map fst (checks (snd (main args w))) = check_names.
Proof.
  intros Hslow Hp Hn message.
  split.
  { rewrite run_command_result, (exceeds_timeout_raises w command Hslow).
    reflexivity. }
  split; [reflexivity|].
  split; [apply str_contains_end|].
  destruct (main_completes args w Hp Hn)
    as (v2 & _ & _ & _ & _ & _ & _ & Hchecks & _ & _ & Hsp).
  split; [exact Hsp|].
  rewrite Hchecks. apply gathered_names.
Qed.

Lemma timeout_recorded_and_run_continues_witness :
  let command := ["npx"; "tsc"; "--noEmit"] in
  let description := "TypeScript type check" in
  let message := "Command timed out after 5 minutes: " ++ description in
  fst (run_command command description slow_tsc_world
         (LintChecker false false)) =
    Ok (VDict [("success", VBool false);
               ("returncode", VInt (-1));
               ("stdout", VStr "");
               ("stderr", VStr message);
               ("description", VStr description)]) /\
  str_contains "timed out" message = true /\
  str_contains description message = true /\
  spawned (snd (main default_args slow_tsc_world)) = catalog false /\
  map fst (checks (snd (main default_args slow_tsc_world))) = check_names.
Proof.
  apply (timeout_recorded_and_run_continues default_args slow_tsc_world
           ["npx"; "tsc"; "--noEmit"] "TypeScript type check"
           (LintChecker false false)).
  - left. reflexivity.
  - reflexivity.
  - reflexivity.
Defined.

(** C7. When the manifest [package.json] or the directory [node_modules]
    is missing, the run aborts: no check is recorded in the report, no
    command is spawned, no summary is computed, an [ERROR] line naming
    the missing artifact is printed, and the exit code is 1. *)
Theorem missing_precondition_aborts args w :
  path_exists w "package.json" = false \/ path_exists w "node_modules" = false ->
  let artifact :=
    if path_exists w "package.json" then "node_modules" else "package.json" in
  fst (main args w) = 1 /\
  checks (snd (main args w)) = [] /\
  spawned (snd (main args w)) = [] /\
  summary (snd (main args w)) = None /\
  exists line,
    In line (logged (snd (main args w))) /\
    str_contains "ERROR" line = true /\
    str_contains artifact line = true.
Proof.
  intros H artifact.
  destruct (main_aborts args w H)
    as (st & earlier & -> & _ & Hc & _ & Hsum & Hsp & Hlog).
  cbn [fst snd]. do 4 (split; [assumption || reflexivity|]).
  eexists. split; [rewrite Hlog; apply in_or_app; right; left; reflexivity|].
  split; [apply log_line_has_level|].
  apply log_line_has_message.
  unfold artifact, precondition_message.
  destruct (path_exists w "package.json"); reflexivity.
Qed.

Lemma missing_precondition_aborts_witness :
  fst (main default_args no_node_modules_world) = 1 /\
  checks (snd (main default_args no_node_modules_world)) = [] /\
  spawned (snd (main default_args no_node_modules_world)) = [] /\
  summary (snd (main default_args no_node_modules_world)) = None /\
  exists line,
    In line (logged (snd (main default_args no_node_modules_world))) /\
    str_contains "ERROR" line = true /\
    str_contains "node_modules" line = true.
Proof.
  apply (missing_precondition_aborts default_args no_node_modules_world).
  right. reflexivity.
Defined.

(** C8. Whatever the other flags and the world, [--check-only --fix]
    behaves as [--check-only] alone: same exit code and final state, in
    particular the same argument vectors spawned, in the same order; the
    checker runs with [fix] off, and what it spawns is the catalog
    without the auto-fix arguments (or nothing, when the precondition
    fails). *)
Theorem check_only_overrides_fix w verbose_ save :
  let both := {| arg_fix := true; arg_check_only := true;
                 arg_verbose := verbose_; arg_save_results := save |} in
  let alone := {| arg_fix := false; arg_check_only := true;
                  arg_verbose := verbose_; arg_save_results := save |} in
  main both w = main alone w /\
  spawned (snd (main both w)) = spawned (snd (main alone w)) /\
  fix_mode (snd (main both w)) = false /\
  (spawned (snd (main both w)) = [] \/
   spawned (snd (main both w)) = catalog false).
Proof.
  intros both alone.
  assert (E : main both w = main alone w) by reflexivity.
  split; [exact E|]. split; [now rewrite E|].
  destruct (path_exists w "package.json") eqn:Hp;
    [destruct (path_exists w "node_modules") eqn:Hn|].
  - destruct (main_completes both w Hp Hn)
      as (v2 & _ & _ & _ & _ & _ & Hfix & _ & _ & _ & Hsp).
    split; [exact Hfix | right; exact Hsp].
  - destruct (main_aborts both w (or_intror Hn))
      as (st & earlier & -> & Hfix & _ & _ & _ & Hsp & _).
    split; [exact Hfix | left; exact Hsp].
  - destruct (main_aborts both w (or_introl Hp))
      as (st & earlier & -> & Hfix & _ & _ & _ & Hsp & _).
    split; [exact Hfix | left; exact Hsp].
Qed.

(** C9. When the launch of the command raises an exception other than
    the timeout (executable not found, permission denied, ...),
    [run_command] returns a result with [success = false], exit code -1
    and the text of the exception as [stderr]. *)
Theorem launch_error_recorded w command description text st :
  spawn w command = LaunchFails text ->
  fst (run_command command description w st) =
    Ok (VDict [("success", VBool false);
               ("returncode", VInt (-1));
               ("stdout", VStr "");
               ("stderr", VStr text);
               ("description", VStr description)]).
Proof.
  intros H. rewrite run_command_result. unfold subprocess_run. rewrite H.
  reflexivity.
Qed.

Lemma launch_error_recorded_witness :
  fst (run_command ["npx"; "eslint"; "."; "--ext"; ".ts,.tsx,.js,.jsx"]
         "ESLint check" slow_tsc_world (LintChecker false false)) =
    Ok (VDict [("success", VBool false);
               ("returncode", VInt (-1));
               ("stdout", VStr "");
               ("stderr", VStr "[Errno 2] No such file or directory: 'npx'");
               ("description", VStr "ESLint check")]).
Proof.
  apply (launch_error_recorded slow_tsc_world
           ["npx"; "eslint"; "."; "--ext"; ".ts,.tsx,.js,.jsx"] "ESLint check"
           "[Errno 2] No such file or directory: 'npx'"
           (LintChecker false false)).
  reflexivity.
Defined.

(** C10. For every report, at every entry: the guard of the [elif]
    implies the guard of the [if] before it, so the [elif] arm is never
    selected, and the entry is handled by the plain arm when it is a dict
    and only counted otherwise: the nested per-test loop never runs. *)
Theorem elif_branch_unreachable (report : dict) :
  Forall
    (fun item =>
       let '(check_name, result) := item in
       ((isinstance_dict result && str_contains "tests" check_name)%bool = true
        -> isinstance_dict result = true) /\
       select_branch check_name result <> ElifBranch /\
       forall v,
         analyze_item v item =
         if isinstance_dict result
         then analyze_check (count_check v) check_name result
         else Ok (count_check v))
    report.
Proof.
  apply Forall_forall. intros [check_name result] _.
  split; [|split].
  - intros H. now apply andb_true_iff in H.
  - destruct (select_branch_cases check_name result) as [[_ ->]|[_ ->]];
      discriminate.
  - intros v. unfold analyze_item.
    destruct (select_branch_cases check_name result) as [[-> ->]|[-> ->]];
      reflexivity.
Qed.

(* ================================================================== *)
(** ** Further properties of the code *)
(* ================================================================== *)

(** ** Further properties of the command runner *)



(** X2. Whatever the command does, [run_command] does not raise and
    returns a dict with the five keys [success], [returncode], [stdout],
    [stderr], [description], in that order, whose [success] is true
    exactly when [returncode] is 0 and whose [description] is the label
    given. It spawns that one command and leaves the report (checks,
    errors, summary) and the mode of the checker untouched. *)
Theorem run_command_result_shape w command description st :
  exists b rc out err,
    fst (run_command command description w st) =
      Ok (VDict [("success", VBool b);
                 ("returncode", VInt rc);
                 ("stdout", VStr out);
                 ("stderr", VStr err);
                 ("description", VStr description)]) /\
    (b = true <-> rc = 0) /\
    spawned (snd (run_command command description w st))
      = (spawned st ++ [command])%list /\
    checks (snd (run_command command description w st)) = checks st /\
    errors (snd (run_command command description w st)) = errors st /\
    summary (snd (run_command command description w st)) = summary st /\
    fix_mode (snd (run_command command description w st)) = fix_mode st.
Proof.
  rewrite run_command_result.
  destruct (subprocess_run w command 300) as [[rc out err]|[|text]];
    cbn [command_result returncode stdout stderr].
  - exists (rc =? 0), rc, out, err. split; [reflexivity|].
    split; [apply Z.eqb_eq|]. repeat split; reflexivity.
  - eexists false, (-1), _, _. split; [reflexivity|].
    split; [split; discriminate|]. repeat split; reflexivity.
  - eexists false, (-1), _, _. split; [reflexivity|].
    split; [split; discriminate|]. repeat split; reflexivity.
Qed.


(** ** Further properties of a run *)

Lemma gathered_logged w f v :
  logged (gathered w f v) = if v then progress_lines w f else [].
Proof.
  destruct f, v; lazy -[strftime String.append]; reflexivity.
Qed.

Lemma gathered_log_calls w f v : log_calls (gathered w f v) = 9%nat.
Proof. destruct f; lazy; reflexivity. Qed.

Lemma main_logged args w :
  path_exists w "package.json" = true ->
  path_exists w "node_modules" = true ->
  logged (snd (main args w)) =
  ((if arg_verbose args
    then progress_lines w (arg_fix args && negb (arg_check_only args))
    else []) ++
   (if (arg_save_results args && arg_verbose args)%bool
    then match open_for_writing w "lint_results.json" with
         | None => [saved_line w 9]
         | Some _ => []
         end
    else []))%list.
Proof.
  intros Hp Hn.
  set (f := (arg_fix args && negb (arg_check_only args))%bool).
  destruct (analysis_of_gathered w f (arg_verbose args))
    as (v2 & Hv & Ht & Hs & _).
  assert (Hover : overall_success (summarize v2) = false).
  { unfold summarize; cbn [overall_success]. apply Z.eqb_neq. lia. }
  pose proof (gathered_logged w f (arg_verbose args)) as Hlog.
  pose proof (gathered_log_calls w f (arg_verbose args)) as Hcalls.
  assert (Hverb : verbose (gathered w f (arg_verbose args)) = arg_verbose args).
  { destruct f; lazy; reflexivity. }
  rewrite <- Hlog.
  unfold main. fold f.
  unfold bind at 1.
  rewrite (run_all_checks_gathered w f (arg_verbose args) Hp Hn).
  set (g := gathered w f (arg_verbose args)) in *. clearbody g.
  unfold bind at 1.
  rewrite (analyze_results_eq w g v2 Hv).
  unfold bind at 1, get_self at 1. cbn [summary]. unfold ret at 1.
  rewrite Hover.
  unfold bind at 1, print_summary at 1, bind at 1, get_self at 1.
  cbn [summary]. unfold ret at 1.
  destruct (arg_save_results args); cbn [andb].
  - unfold bind at 1, save_results at 1, bind at 1, ask_world at 1.
    destruct (open_for_writing w "lint_results.json").
    + unfold raise. cbn. destruct (arg_verbose args); now rewrite app_nil_r.
    + unfold log, bind, ret. cbn. rewrite Hverb, Hcalls.
      destruct (arg_verbose args); cbn; [reflexivity | now rewrite app_nil_r].
  - unfold bind, ret. cbn. now rewrite app_nil_r.
Qed.

(** X3. Without [--verbose], a run that passes the precondition emits no
    line through [log], whatever the commands do and whether or not the
    report is saved: all its log calls are at level INFO. *)
Theorem quiet_run_prints_nothing args w :
  arg_verbose args = false ->
  path_exists w "package.json" = true ->
  path_exists w "node_modules" = true ->
  logged (snd (main args w)) = [].
Proof.
  intros Hq Hp Hn. rewrite (main_logged args w Hp Hn), Hq.
  now rewrite andb_false_r.
Qed.

Lemma quiet_run_prints_nothing_witness :
  logged (snd (main default_args lint_fails_world)) = [].
Proof.
  apply (quiet_run_prints_nothing default_args lint_fails_world); reflexivity.
Defined.

(** X4. With [--verbose], a run that passes the precondition logs the
    opening line, then one "Running: ..." line per spawned command, in
    the order of the catalog and each stamped with the clock reading of
    its call, then, only when the report was asked for and could be
    written, the line announcing the saved report. *)
Theorem verbose_log_mirrors_commands args w :
  arg_verbose args = true ->
  path_exists w "package.json" = true ->
  path_exists w "node_modules" = true ->
  let fix_ := (arg_fix args && negb (arg_check_only args))%bool in
  logged (snd (main args w)) =
  (progress_lines w fix_ ++
   (if arg_save_results args
    then match open_for_writing w "lint_results.json" with
         | None => [saved_line w 9]
         | Some _ => []
         end
    else []))%list /\
  length (progress_lines w fix_)
    = S (length (spawned (snd (main args w)))).
Proof.
  intros Hv Hp Hn fix_.
  rewrite (main_logged args w Hp Hn), Hv, andb_true_r.
  split; [reflexivity|].
  destruct (main_completes args w Hp Hn)
    as (v2 & _ & _ & _ & _ & _ & _ & _ & _ & _ & ->).
  fold fix_. destruct fix_; reflexivity.
Qed.

Lemma verbose_log_mirrors_commands_witness :
  let args := {| arg_fix := true; arg_check_only := false;
                 arg_verbose := true; arg_save_results := true |} in
  logged (snd (main args all_pass_world)) =
  (progress_lines all_pass_world true ++ [saved_line all_pass_world 9])%list /\
  length (progress_lines all_pass_world true)
    = S (length (spawned (snd (main args all_pass_world)))).
Proof.
  apply (verbose_log_mirrors_commands
           {| arg_fix := true; arg_check_only := false;
              arg_verbose := true; arg_save_results := true |}
           all_pass_world); reflexivity.
Defined.

(** X10. Once the command line is parsed, [main] exits with code 1 for
    every combination of flags and every behaviour of the commands and
    of the file system: exit code 0 is never produced. *)
Theorem main_always_exits_1 args w : fst (main args w) = 1.
Proof.
  destruct (path_exists w "package.json") eqn:Hp;
    [destruct (path_exists w "node_modules") eqn:Hn|].
  - now destruct (main_completes args w Hp Hn)
      as (v2 & _ & _ & _ & _ & Hexit & _).
  - now destruct (main_aborts args w (or_intror Hn)) as (st & ? & -> & _).
  - now destruct (main_aborts args w (or_introl Hp)) as (st & ? & -> & _).
Qed.

(** X11. In a run that passes the precondition, the auto-fix arguments
    [--fix] and [--write] are spawned exactly when [--fix] is given
    without [--check-only], and [--check] exactly otherwise; the commands
    after the lint and format commands are the same in both modes. *)
Theorem fix_arguments_iff_fix_without_check_only args w :
  path_exists w "package.json" = true ->
  path_exists w "node_modules" = true ->
  let fix_ := (arg_fix args && negb (arg_check_only args))%bool in
  passes_flag "--fix" (snd (main args w)) = fix_ /\
  passes_flag "--write" (snd (main args w)) = fix_ /\
  passes_flag "--check" (snd (main args w)) = negb fix_ /\
  skipn 2 (spawned (snd (main args w))) = skipn 2 (catalog false).
Proof.
  intros Hp Hn fix_.
  destruct (main_completes args w Hp Hn)
    as (v2 & _ & _ & _ & _ & _ & _ & _ & _ & _ & Hsp).
  unfold passes_flag. rewrite Hsp. fold fix_.
  destruct fix_; repeat split; reflexivity.
Qed.

Lemma fix_arguments_iff_fix_without_check_only_witness :
  let args := {| arg_fix := true; arg_check_only := false;
                 arg_verbose := false; arg_save_results := false |} in
  passes_flag "--fix" (snd (main args all_pass_world)) = true /\
  passes_flag "--write" (snd (main args all_pass_world)) = true /\
  passes_flag "--check" (snd (main args all_pass_world)) = false /\
  skipn 2 (spawned (snd (main args all_pass_world))) = skipn 2 (catalog false).
Proof.
  apply (fix_arguments_iff_fix_without_check_only
           {| arg_fix := true; arg_check_only := false;
              arg_verbose := false; arg_save_results := false |}
           all_pass_world); reflexivity.
Defined.


(** ** Further properties of the structural checks *)

Lemma filter_none_forallb {A} (p : A -> bool) l :
  (length (filter (fun x => negb (p x)) l) =? 0)%nat = forallb p l.
Proof.
  induction l as [|x l IH]; [reflexivity|].
  cbn [filter forallb]. destruct (p x); cbn [negb andb length]; [exact IH|].
  reflexivity.
Qed.

Lemma file_structure_result_eq w st :
  exists missing,
    check_file_structure w st =
      (Ok (VDict [("success", VBool (forallb (path_exists w) required_paths));
                  ("missing_paths", VList (map VStr missing));
                  ("description", VStr "File structure check")]), st) /\
    (forall path,
       In path missing <->
       In path required_paths /\ path_exists w path = false) /\
    (missing = [] <-> forall path, In path required_paths ->
                                   path_exists w path = true).
Proof.
  exists (filter (fun path => negb (path_exists w path)) required_paths).
  split; [|split].
  - unfold check_file_structure, bind, ask_world, ret.
    now rewrite filter_none_forallb.
  - intros path. rewrite filter_In, negb_true_iff. reflexivity.
  - rewrite <- forallb_forall, <- filter_none_forallb, Nat.eqb_eq.
    split; [now intros -> | apply length_zero_iff_nil].
Qed.

(** X5. [check_file_structure] changes nothing in the checker; its result
    has [success] true exactly when every required path exists, and
    [missing_paths] lists exactly the required paths that do not exist. *)
Theorem file_structure_result w st :
  exists missing,
    check_file_structure w st =
      (Ok (VDict [("success", VBool (forallb (path_exists w) required_paths));
                  ("missing_paths", VList (map VStr missing));
                  ("description", VStr "File structure check")]), st) /\
    (forall path,
       In path missing <->
       In path required_paths /\ path_exists w path = false) /\
    (missing = [] <-> forall path, In path required_paths ->
                                   path_exists w path = true).
Proof. exact (file_structure_result_eq w st). Qed.

(** X6. A failed structural check is reported by a single error line
    holding its name and label: the aggregation adds no detail line, so
    the missing paths, or the missing environment file, do not appear in
    the error list. *)
Theorem structural_failure_reported_without_detail w st v r1 r2 :
  fst (check_file_structure w st) = Ok r1 ->
  fst (check_environment_variables w st) = Ok r2 ->
  (forallb (path_exists w) required_paths = false ->
   analyze_item v ("file_structure", r1) =
   Ok (append_error "file_structure: File structure check" (count_check v))) /\
  (path_exists w ".env.example" && path_exists w "shared/env-validation.ts"
     = false ->
   analyze_item v ("environment", r2) =
   Ok (append_error "environment: Environment configuration check"
         (count_check v))).
Proof.
  destruct (file_structure_result_eq w st) as (missing & -> & _).
  unfold check_environment_variables, bind, ask_world, ret. cbn [fst].
  intros [= <-] [= <-].
  split; intros H; unfold analyze_item; rewrite select_branch_dict;
    unfold analyze_check, py_get, res_bind.
  - unfold required_paths in H. cbn [forallb] in H.
    cbn [dict_lookup String.eqb Ascii.eqb Bool.eqb]. rewrite H. reflexivity.
  - cbn [dict_lookup String.eqb Ascii.eqb Bool.eqb map snd forallb truthy].
    rewrite andb_true_r, H. reflexivity.
Qed.

Lemma structural_failure_reported_without_detail_witness :
  analyze_item start_vars
    ("file_structure",
     VDict [("success", VBool false);
            ("missing_paths", VList [VStr "worker"]);
            ("description", VStr "File structure check")]) =
  Ok (append_error "file_structure: File structure check"
        (count_check start_vars)) /\
  analyze_item start_vars
    ("environment",
     VDict [("success", VBool false);
            ("checks", VDict [("env_example_exists", VBool false);
                              ("env_validation_exists", VBool true)]);
            ("description", VStr "Environment configuration check")]) =
  Ok (append_error "environment: Environment configuration check"
        (count_check start_vars)).
Proof.
  destruct (structural_failure_reported_without_detail no_worker_world
              (LintChecker false false) start_vars
              (VDict [("success", VBool false);
                      ("missing_paths", VList [VStr "worker"]);
                      ("description", VStr "File structure check")])
              (VDict [("success", VBool false);
                      ("checks", VDict [("env_example_exists", VBool false);
                                        ("env_validation_exists", VBool true)]);
                      ("description", VStr "Environment configuration check")])
              eq_refl eq_refl) as [H1 H2].
  split; [apply H1 | apply H2]; reflexivity.
Defined.


(** ** Further properties of the aggregation *)

Lemma str_take_length n : forall s,
  String.length (str_take n s) = Nat.min n (String.length s).
Proof.
  unfold str_take. induction n as [|n IH]; intros s.
  - destruct s; reflexivity.
  - destruct s as [|c s]; [reflexivity|]. cbn [substring String.length Nat.min].
    now rewrite IH.
Qed.

Lemma str_take_prefix n : forall s, String.prefix (str_take n s) s = true.
Proof.
  unfold str_take. induction n as [|n IH]; intros s.
  - destruct s; reflexivity.
  - destruct s as [|c s]; [reflexivity|]. cbn [substring String.prefix].
    destruct (ascii_dec c c) as [_|ne]; [apply IH | now elim ne].
Qed.

Lemma str_take_all n : forall s,
  (String.length s <= n)%nat -> str_take n s = s.
Proof.
  unfold str_take. induction n as [|n IH]; intros s H.
  - destruct s; [reflexivity | cbn in H; lia].
  - destruct s as [|c s]; [reflexivity|]. cbn [substring]. f_equal.
    apply IH. cbn in H. lia.
Qed.

(** X7. A failed command is reported by the line "name: label" and, when
    its captured error stream is not empty, by a second line
    "  Details: snippet..." whose snippet is the stream cut after 200
    characters: a prefix of the stream, of length min(200, length), and
    the whole stream when it has at most 200 characters (the three dots
    are appended all the same). *)
Theorem failed_command_error_lines v check_name outcome description :
  entry_succeeded (command_result outcome description) = false ->
  exists err snippet,
    py_get (command_result outcome description) "stderr" VNone
      = Ok (VStr err) /\
    String.length snippet = Nat.min 200 (String.length err) /\
    String.prefix snippet err = true /\
    ((String.length err <= 200)%nat -> snippet = err) /\
    analyze_item v (check_name, command_result outcome description) =
    Ok (let reported :=
          append_error (check_name ++ ": " ++ description) (count_check v) in
        if String.eqb err "" then reported
        else append_error ("  Details: " ++ snippet ++ "...") reported).
Proof.
  intros H.
  destruct (failing_command_reported v check_name outcome description H)
    as (err & Herr & Hitem).
  exists err, (str_take 200 err).
  split.
  { destruct outcome as [[rc out e]|[|text]]; cbn in Herr |- *;
      injection Herr as <-; reflexivity. }
  split; [apply str_take_length|]. split; [apply str_take_prefix|].
  split; [apply str_take_all | exact Hitem].
Qed.

Lemma failed_command_error_lines_witness :
  exists err snippet,
    py_get (failed "Prettier check" "2 files need formatting") "stderr" VNone
      = Ok (VStr err) /\
    String.length snippet = Nat.min 200 (String.length err) /\
    String.prefix snippet err = true /\
    ((String.length err <= 200)%nat -> snippet = err) /\
    analyze_item start_vars
      ("prettier", failed "Prettier check" "2 files need formatting") =
    Ok (let reported :=
          append_error ("prettier" ++ ": " ++ "Prettier check")
            (count_check start_vars) in
        if String.eqb err "" then reported
        else append_error ("  Details: " ++ snippet ++ "...") reported).
Proof.
  apply (failed_command_error_lines start_vars "prettier"
           (Ok {| returncode := 2; stdout := "";
                  stderr := "2 files need formatting" |}) "Prettier check").
  reflexivity.
Defined.

Lemma analyze_item_exact v item v' :
  analyze_item v item = Ok v' ->
  Loop.successful_checks v' =
    Loop.successful_checks v + (if entry_succeeded (snd item) then 1 else 0) /\
  (length (Loop.errors v') <=
     length (Loop.errors v) + (if entry_succeeded (snd item) then 0 else 2))%nat.
Proof.
  destruct item as [check_name result]. cbn [snd]. unfold analyze_item.
  destruct (select_branch_cases check_name result) as [[D ->]|[D ->]].
  - destruct result; try discriminate.
    unfold analyze_check, entry_succeeded, py_get, py_getitem, res_bind.
    destruct (truthy match dict_lookup d "success" with
                     | Some x => x | None => VBool false end).
    + intros [= <-]. vars_simpl. split; lia.
    + destruct (truthy match dict_lookup d "stderr" with
                       | Some x => x | None => VNone end).
      * destruct (dict_lookup d "stderr") as [e|]; [|discriminate].
        destruct (py_slice_to 200 e); [|discriminate].
        intros [= <-]. vars_simpl. rewrite !length_app. cbn. split; lia.
      * intros [= <-]. vars_simpl. rewrite !length_app. cbn. split; lia.
  - intros [= <-]. unfold entry_succeeded.
    destruct result; try discriminate; vars_simpl; split; lia.
Qed.

Lemma loop_exact items : forall v v',
  res_for_each items analyze_item v = Ok v' ->
  Loop.successful_checks v' = Loop.successful_checks v + count_succeeded items /\
  Z.of_nat (length (Loop.errors v')) <=
    Z.of_nat (length (Loop.errors v))
    + 2 * (Z.of_nat (length items) - count_succeeded items).
Proof.
  unfold count_succeeded.
  induction items as [|item items IH]; intros v v'.
  - intros [= <-]. cbn. lia.
  - cbn [res_for_each]. unfold res_bind at 1.
    destruct (analyze_item v item) as [v1|] eqn:E; [|discriminate].
    intros H. apply IH in H. apply analyze_item_exact in E.
    cbn [filter length]. destruct (entry_succeeded (snd item)); cbn [length];
      lia.
Qed.

Lemma count_succeeded_bounds items :
  0 <= count_succeeded items <= Z.of_nat (length items).
Proof.
  unfold count_succeeded. pose proof (filter_length_le
    (fun item : string * pyval => entry_succeeded (snd item)) items). lia.
Qed.

(** X8. When [analyze_results] returns, [total_checks] is the number of
    entries of the report, [successful_checks] the number of entries that
    are dicts with a true [success], so that
    [0 <= successful_checks <= total_checks]; the error list has at most
    two lines per failed check, no warning is ever produced, and the
    checks themselves are left as they were. *)
Theorem analysis_counts w st st' :
  analyze_results w st = (Ok tt, st') ->
  exists s,
    summary st' = Some s /\
    total_checks s = Z.of_nat (length (checks st)) /\
    successful_checks s = count_succeeded (checks st) /\
    0 <= successful_checks s <= total_checks s /\
    Z.of_nat (length (errors st')) <= 2 * failed_checks s /\
    warnings st' = [] /\
    checks st' = checks st.
Proof.
  unfold analyze_results.
  destruct (res_for_each (checks st) analyze_item start_vars) as [v|e] eqn:E;
    [|discriminate].
  intros [= <-]. exists (summarize v). cbn [summary errors warnings checks].
  pose proof (loop_counts _ _ _ E) as (Ht & _ & Hw).
  pose proof (loop_exact _ _ _ E) as (Hs & He).
  pose proof (count_succeeded_bounds (checks st)).
  unfold summarize. cbn [total_checks successful_checks failed_checks].
  unfold start_vars in Ht, Hs, He, Hw.
  cbn [Loop.total_checks Loop.successful_checks Loop.errors Loop.warnings
       length] in Ht, Hs, He, Hw.
  repeat split; try lia; try reflexivity; try assumption.
Qed.

Lemma analysis_counts_witness :
  exists s,
    summary (snd (analyze_results all_pass_world three_of_four)) = Some s /\
    total_checks s = Z.of_nat (length (checks three_of_four)) /\
    successful_checks s = count_succeeded (checks three_of_four) /\
    0 <= successful_checks s <= total_checks s /\
    Z.of_nat (length (errors (snd (analyze_results all_pass_world three_of_four))))
      <= 2 * failed_checks s /\
    warnings (snd (analyze_results all_pass_world three_of_four)) = [] /\
    checks (snd (analyze_results all_pass_world three_of_four))
      = checks three_of_four.
Proof.
  apply (analysis_counts all_pass_world three_of_four).
  vm_compute. reflexivity.
Defined.

(** X9. [analyze_results] can be run again without effect: after a call
    that returned, a second call returns with the very same state (the
    error list is rebuilt, not extended). A call that raises leaves the
    state as it was, without summary. *)
Theorem analyze_results_idempotent w st r st' :
  analyze_results w st = (r, st') ->
  match r with
  | Ok _ => analyze_results w st' = (Ok tt, st')
  | Raise _ => st' = st
  end.
Proof.
  unfold analyze_results.
  destruct (res_for_each (checks st) analyze_item start_vars) as [v|e] eqn:E.
  - intros [= <- <-]. cbn [checks]. rewrite E. reflexivity.
  - intros [= <- <-]. reflexivity.
Qed.

Lemma analyze_results_idempotent_witness :
  analyze_results all_pass_world
    (snd (analyze_results all_pass_world three_of_four)) =
  (Ok tt, snd (analyze_results all_pass_world three_of_four)).
Proof.
  exact (analyze_results_idempotent all_pass_world three_of_four (Ok tt)
           (snd (analyze_results all_pass_world three_of_four)) eq_refl).
Defined.


(** ** Further properties of the report and of the precondition *)

Lemma gathered_entries w f v :
  let run command description :=
    command_result (subprocess_run w command 300) description in
  let g := checks (gathered w f v) in
  dict_lookup g "eslint" =
    Some (run (nth 0 (catalog f) [])
              (if f then "ESLint with auto-fix" else "ESLint check")) /\
  dict_lookup g "prettier" =
    Some (run (nth 1 (catalog f) [])
              (if f then "Prettier format" else "Prettier check")) /\
  dict_lookup g "typescript" =
    Some (run ["npx"; "tsc"; "--noEmit"] "TypeScript type check") /\
  dict_lookup g "drizzle" =
    Some (run ["npx"; "drizzle-kit"; "check"] "Drizzle schema check") /\
  dict_lookup g "tests" =
    Some (VDict (map (fun '(command, description) =>
                        (description, run command description))
                     test_commands)).
Proof.
  destruct f; lazy -[subprocess_run command_result]; repeat split; reflexivity.
Qed.

(** X12. In a run that passes the precondition, the report holds, under
    each command check's name, the result of that very command, and under
    ["tests"] the mapping from each test's label to the result of its
    command, in the order of [test_commands]. *)
Theorem report_holds_command_results args w :
  path_exists w "package.json" = true ->
  path_exists w "node_modules" = true ->
  let fix_ := (arg_fix args && negb (arg_check_only args))%bool in
  let run command description :=
    command_result (subprocess_run w command 300) description in
  let report := checks (snd (main args w)) in
  dict_lookup report "eslint" =
    Some (run (nth 0 (catalog fix_) [])
              (if fix_ then "ESLint with auto-fix" else "ESLint check")) /\
  dict_lookup report "prettier" =
    Some (run (nth 1 (catalog fix_) [])
              (if fix_ then "Prettier format" else "Prettier check")) /\
  dict_lookup report "typescript" =
    Some (run ["npx"; "tsc"; "--noEmit"] "TypeScript type check") /\
  dict_lookup report "drizzle" =
    Some (run ["npx"; "drizzle-kit"; "check"] "Drizzle schema check") /\
  dict_lookup report "tests" =
    Some (VDict (map (fun '(command, description) =>
                        (description, run command description))
                     test_commands)).
Proof.
  intros Hp Hn fix_ run report. subst report.
  destruct (main_completes args w Hp Hn)
    as (v2 & _ & _ & _ & _ & _ & _ & -> & _).
  exact (gathered_entries w fix_ (arg_verbose args)).
Qed.

Lemma report_holds_command_results_witness :
  let w := auth_test_fails_world in
  let run command description :=
    command_result (subprocess_run w command 300) description in
  let report := checks (snd (main default_args w)) in
  dict_lookup report "eslint" =
    Some (run (nth 0 (catalog false) []) "ESLint check") /\
  dict_lookup report "prettier" =
    Some (run (nth 1 (catalog false) []) "Prettier check") /\
  dict_lookup report "typescript" =
    Some (run ["npx"; "tsc"; "--noEmit"] "TypeScript type check") /\
  dict_lookup report "drizzle" =
    Some (run ["npx"; "drizzle-kit"; "check"] "Drizzle schema check") /\
  dict_lookup report "tests" =
    Some (VDict (map (fun '(command, description) =>
                        (description, run command description))
                     test_commands)).
Proof.
  apply (report_holds_command_results default_args auth_test_fails_world);
    reflexivity.
Defined.

(** The six plain entries of the report, from the world. *)
Lemma gathered_plain w f v :
  firstn 6 (checks (gathered w f v)) = plain_checks w f.
Proof.
  destruct f;
    lazy -[subprocess_run command_result path_exists filter forallb];
    reflexivity.
Qed.

Lemma analysis_ignores_tests w f v :
  res_for_each (checks (gathered w f v)) analyze_item start_vars =
  res_bind (res_for_each (plain_checks w f) analyze_item start_vars)
    (fun v1 => Ok (append_error "tests: Check failed" (count_check v1))).
Proof.
  rewrite <- (gathered_plain w f v).
  destruct (gathered_split w f v)
    as (plain & batch & -> & Hlen & _ & _ & Hs & Hd & He).
  rewrite firstn_app, Hlen, Nat.sub_diag, firstn_O, app_nil_r.
  rewrite <- Hlen, firstn_all, res_for_each_app.
  destruct (res_for_each plain analyze_item start_vars) as [v1|e];
    [|reflexivity].
  cbn [res_bind res_for_each].
  now rewrite (analyze_item_without_success v1 "tests" batch Hs Hd He).
Qed.

Lemma subprocess_run_ext w1 w2 command timeout :
  spawn w2 command = spawn w1 command ->
  subprocess_run w2 command timeout = subprocess_run w1 command timeout.
Proof. unfold subprocess_run. now intros ->. Qed.

Lemma plain_checks_ext w1 w2 f :
  (forall path, path_exists w2 path = path_exists w1 path) ->
  (forall command, In command (firstn 4 (catalog f)) ->
                   spawn w2 command = spawn w1 command) ->
  plain_checks w2 f = plain_checks w1 f.
Proof.
  intros Hpath Hspawn. unfold plain_checks.
  rewrite !Hpath.
  rewrite (filter_ext (fun path => negb (path_exists w2 path))
                      (fun path => negb (path_exists w1 path)))
    by (intros path; now rewrite Hpath).
  rewrite !(subprocess_run_ext w1 w2)
    by (apply Hspawn; destruct f; cbn; tauto).
  reflexivity.
Qed.

(** X13. The outcomes of the test commands have no influence on the
    verdict: two worlds with the same file system that agree on the four
    lint, format, type and schema commands give the same exit code, the
    same summary and the same error list, whatever the tests do. *)
Theorem test_outcomes_do_not_matter args w1 w2 :
  path_exists w1 "package.json" = true ->
  path_exists w1 "node_modules" = true ->
  (forall path, path_exists w2 path = path_exists w1 path) ->
  (forall command,
     In command
        (firstn 4 (catalog (arg_fix args && negb (arg_check_only args)))) ->
     spawn w2 command = spawn w1 command) ->
  fst (main args w2) = fst (main args w1) /\
  summary (snd (main args w2)) = summary (snd (main args w1)) /\
  errors (snd (main args w2)) = errors (snd (main args w1)).
Proof.
  intros Hp Hn Hpath Hspawn.
  destruct (main_completes args w1 Hp Hn)
    as (v1 & Hv1 & _ & _ & _ & -> & _ & _ & -> & -> & _).
  assert (Hp2 : path_exists w2 "package.json" = true) by now rewrite Hpath.
  assert (Hn2 : path_exists w2 "node_modules" = true) by now rewrite Hpath.
  destruct (main_completes args w2 Hp2 Hn2)
    as (v2 & Hv2 & _ & _ & _ & -> & _ & _ & -> & -> & _).
  rewrite analysis_ignores_tests in Hv1, Hv2.
  rewrite (plain_checks_ext w1 w2 _ Hpath Hspawn), Hv1 in Hv2.
  injection Hv2 as <-. repeat split; reflexivity.
Qed.

Lemma test_outcomes_do_not_matter_witness :
  fst (main default_args auth_test_fails_world)
    = fst (main default_args all_pass_world) /\
  summary (snd (main default_args auth_test_fails_world))
    = summary (snd (main default_args all_pass_world)) /\
  errors (snd (main default_args auth_test_fails_world))
    = errors (snd (main default_args all_pass_world)).
Proof.
  apply (test_outcomes_do_not_matter default_args all_pass_world
           auth_test_fails_world); try reflexivity.
  intros command H. cbn in H.
  destruct H as [<-|[<-|[<-|[<-|[]]]]]; reflexivity.
Defined.


(** ** When the aggregation raises *)




(** An entry of the report that makes the aggregation raise. *)
Example odd_report_raises :
  analyze_results all_pass_world odd_report =
  (Raise (Exception "'int' object is not subscriptable"), odd_report).
Proof. reflexivity. Qed.
